(** * Shared-session authentication middleware of nodeTools (auth/index.js)

    A shallow embedding of the four Express middlewares that
    [createAuthMiddleware] returns ([attachUser], [requireAuth],
    [optionalAuth], [requireAdmin])
    and of [createSessionConfig], with the properties of the request
    pipeline stated over it.

    - JavaScript values are an inductive type with the language's notion of
      truthiness; objects are finite maps from property names to values.
    - A middleware is a computation over the request/response pair that may
      throw, and that records, in order, every effect it has on the outside
      world (logger calls, store calls, assignments to [res.locals.user],
      response calls, the session save, the call of [next]).
    - What lies outside the module is a parameter of the model: the store
      behind [dbGetter], the ObjectId class of the mongodb driver, the
      session object of express-session. A thrown value is an [Error] with a
      name and a message; the logger function returns; [session.save] hands
      its callback to the session store and returns, and the store calls the
      callback, with an error or without, once the function that called
      [save] has returned. *)

From Stdlib Require Import String ZArith List Bool.
From stdpp Require Import base option list gmap strings pretty.

#[local] Set Warnings "-register-all".

(** ** JavaScript values *)

Inductive JSValue : Type :=
| JUndefined
| JNull
| JBool (b : bool)
| JNum (n : Z)
| JStr (s : string)
| JObjectId (hex : string)
| JObj (fields : gmap string JSValue).

(** [ToBoolean]: the test performed by [if (v)], [!v], [a && b], [a || b].
    Numbers are the integer ones. *)
Definition truthy (v : JSValue) : bool :=
  match v with
  | JUndefined | JNull => false
  | JBool b => b
  | JNum n => negb (n =? 0)%Z
  | JStr s => negb (String.eqb s "")
  | JObjectId _ | JObj _ => true
  end.

(** [a || b] and [a && b] return one of their operands. *)
Definition js_or (a b : JSValue) : JSValue := if truthy a then a else b.
Definition js_and (a b : JSValue) : JSValue := if truthy a then b else a.

(** [v.k] for a [v] that is neither [null] nor [undefined]; the properties
    read by the module ([_id], [name], [email], [isAdmin]) exist on no
    primitive value. *)
Definition getProp (v : JSValue) (k : string) : JSValue :=
  match v with
  | JObj fields => default JUndefined (fields !! k)
  | _ => JUndefined
  end.

(** The text a template literal [`${v}`] inserts. *)
Definition toString (v : JSValue) : string :=
  match v with
  | JUndefined => "undefined"
  | JNull => "null"
  | JBool true => "true"
  | JBool false => "false"
  | JNum n => pretty n
  | JStr s => s
  | JObjectId hex => hex
  | JObj _ => "[object Object]"
  end.

(** A string-valued request property that Express may leave undefined. *)
Definition opt_to_js (o : option string) : JSValue :=
  match o with
  | Some s => JStr s
  | None => JUndefined
  end.

(** ** Thrown errors and results of calls that may throw *)

Record JSError : Type := mkError { err_name : string; message : string }.

(** [Error.prototype.toString], the text of [`${err}`]. *)
Definition error_toString (e : JSError) : string :=
  if String.eqb (err_name e) "" then message e
  else if String.eqb (message e) "" then err_name e
  else err_name e +:+ ": " +:+ message e.

Definition new_Error (msg : string) : JSError := mkError "Error" msg.

Inductive Outcome (A : Type) : Type :=
| Returns (a : A)
| Throws (e : JSError).
Arguments Returns {A} a.
Arguments Throws {A} e.

(** ** The request, its session and the response *)

(** The session object that express-session hangs on the request.
    [returnTo_setter] is [Some e] for a session on which assigning
    [returnTo] throws [e]; [save] is [None] when [session.save] is not a
    function and [Some err] when it is one that reports [err] to its
    callback ([None]: saved). *)
Record Session : Type := mkSession {
  userId : JSValue;
  returnTo : JSValue;
  others : gmap string JSValue;
  returnTo_setter : option JSError;
  save : option (option JSError)
}.

Record Request : Type := mkRequest {
  originalUrl : option string;
  path : option string;
  url : option string;
  sessionID : option string;
  session : option Session
}.

(** The pair [(req, res)] a middleware receives; of [res] the state is the
    slot [res.locals.user]. *)
Record Ctx : Type := mkCtx {
  req : Request;
  locals_user : JSValue
}.

Definition with_user (v : JSValue) (c : Ctx) : Ctx :=
  mkCtx (req c) v.

Definition with_returnTo (v : JSValue) (s : Session) : Session :=
  mkSession (userId s) v (others s) (returnTo_setter s) (save s).

Definition with_session (s : Session) (r : Request) : Request :=
  mkRequest (originalUrl r) (path r) (url r) (sessionID r) (Some s).

(** ** The store behind [dbGetter] and the ObjectId class of the driver *)

Record Collection : Type := mkCollection {
  findOne : JSValue -> Outcome JSValue   (* findOne({ _id: key }), awaited *)
}.

Record Db : Type := mkDb {
  collection : string -> Outcome Collection
}.

(** [ObjectId.isValid] and [new ObjectId] of the mongodb driver. *)
Record ObjectIdClass : Type := mkObjectIdClass {
  isValid : JSValue -> bool;
  newObjectId : JSValue -> Outcome JSValue
}.

(** ** Effects *)

Inductive StoreCall : Type :=
| CallDbGetter
| CallCollection (name : string)
| CallFindOne (key : JSValue).

Inductive Event : Type :=
| ELog (line : string)            (* loggerFn(line) *)
| EStore (c : StoreCall)
| ESetUser (v : JSValue)          (* res.locals.user = v *)
| ESetReturnTo (v : JSValue)      (* req.session.returnTo = v, attempted *)
| ESessionSave                    (* req.session.save(cb) is called *)
| ESaveCallback (err : option JSError)  (* the store calls cb(err) *)
| EStatus (code : Z)              (* res.status(code) *)
| EJson (body : JSValue)          (* res.json(body) *)
| ERedirect (target : string)     (* res.redirect(target) *)
| ENext.                          (* next() *)

Record Run (A : Type) : Type := mkRun {
  outcome : Outcome A;
  final : Ctx;
  events : list Event
}.
Arguments mkRun {A} outcome final events.
Arguments outcome {A} r.
Arguments final {A} r.
Arguments events {A} r.

(** A computation over the request/response pair: it may throw, it keeps the
    state it reached when it throws, and its events come in program order. *)
Definition M (A : Type) : Type := Ctx -> Run A.

#[global] Instance M_ret : MRet M := fun A a c => mkRun (Returns a) c [].

#[global] Instance M_bind : MBind M := fun A B f m c =>
  match m c with
  | mkRun (Returns a) c' evs =>
      match f a c' with
      | mkRun o c'' evs' => mkRun o c'' (evs ++ evs')
      end
  | mkRun (Throws e) c' evs => mkRun (Throws e) c' evs
  end.

(** [try { body } catch (err) { handler }] *)
Definition try_catch {A : Type} (body : M A) (handler : JSError -> M A) : M A :=
  fun c =>
    match body c with
    | mkRun (Returns a) c' evs => mkRun (Returns a) c' evs
    | mkRun (Throws e) c' evs =>
        match handler e c' with
        | mkRun o c'' evs' => mkRun o c'' (evs ++ evs')
        end
    end.

Definition emit (e : Event) : M unit :=
  fun c => mkRun (Returns tt) c [e].

(** The result of a call that has no effect of its own. *)
Definition lift {A : Type} (o : Outcome A) : M A :=
  fun c => mkRun o c [].

(** The result of an external call, with the call recorded. *)
Definition call {A : Type} (what : StoreCall) (o : Outcome A) : M A :=
  fun c => mkRun o c [EStore what].

Definition get_req : M Request :=
  fun c => mkRun (Returns (req c)) c [].

Definition get_user : M JSValue :=
  fun c => mkRun (Returns (locals_user c)) c [].

Definition set_user (v : JSValue) : M unit :=
  fun c => mkRun (Returns tt) (with_user v c) [ESetUser v].

(** [req.session.returnTo = v] *)
Definition set_returnTo (v : JSValue) : M unit :=
  fun c =>
    match session (req c) with
    | Some s =>
        match returnTo_setter s with
        | Some e => mkRun (Throws e) c [ESetReturnTo v]
        | None =>
            mkRun (Returns tt)
                  (mkCtx (with_session (with_returnTo v s) (req c)) (locals_user c))
                  [ESetReturnTo v]
        end
    | None =>
        mkRun (Throws (mkError "TypeError" "Cannot set properties of undefined (setting 'returnTo')"))
              c []
    end.

(** The callbacks a function has left with the session store when it
    returns; the store calls them afterwards, in order. *)
Definition Pending : Type := list (M unit).

(** [req.session.save(cb)]: the call hands [cb] to the store and returns at
    once; what is left pending is the store's report, [cb(err)]. *)
Definition session_save (err : option JSError) (cb : option JSError -> M unit) : M Pending :=
  emit ESessionSave;;
  mret [emit (ESaveCallback err);; cb err].

(** The store reporting back after the function has returned. *)
Fixpoint settle (pending : Pending) : M unit :=
  match pending with
  | [] => mret tt
  | callback :: rest => callback;; settle rest
  end.

Definition call_next : M unit := emit ENext.

(** ** Configuration and logger *)

Definition DbGetter : Type := Request -> Outcome (option Db).

(** The configuration the middlewares close over, for a deployment whose
    login URL and users collection are strings. [logger] tells whether
    [config.logger] is a function; its calls are the [ELog] events. *)
Record Config : Type := mkConfig {
  dbGetter : DbGetter;
  loginRedirectUrl : string;
  usersCollection : string;
  logger : bool
}.

Definition DEFAULT_loginRedirectUrl : string := "https://data.specialblend.ca/login".
Definition DEFAULT_usersCollection : string := "users".

Inductive Level : Type := Info | Error.

(** [createLogger(loggerFn)(message, level)] *)
Definition createLogger (loggerFn : bool) (message : string) (level : Level) : M unit :=
  if loggerFn then
    let prefix := match level with Error => "[AUTH ERROR]" | Info => "[AUTH]" end in
    emit (ELog (prefix +:+ " " +:+ message))
  else mret tt.

(** [req.originalUrl && req.originalUrl.startsWith('/api')], as a condition *)
Definition isApiRequest (r : Request) : bool :=
  match originalUrl r with
  | Some s => truthy (js_and (JStr s) (JBool (String.prefix "/api" s)))
  | None => false
  end.

(** [req.originalUrl || req.path || 'unknown'] *)
Definition path_of (r : Request) : JSValue :=
  js_or (opt_to_js (originalUrl r)) (js_or (opt_to_js (path r)) (JStr "unknown")).

(** [req.sessionID || 'none'] *)
Definition sessionId_of (r : Request) : JSValue :=
  js_or (opt_to_js (sessionID r)) (JStr "none").

(** The object literal [attachUser] publishes for a record [user]. *)
Definition snapshot (user : JSValue) : JSValue :=
  JObj {[ "_id" := getProp user "_id";
          "name" := getProp user "name";
          "email" := getProp user "email";
          "isAdmin" := js_or (getProp user "isAdmin") (JBool false) ]}.

Definition unauthorized_body : JSValue :=
  JObj {[ "status" := JStr "error"; "message" := JStr "Unauthorized" ]}.

Definition forbidden_body : JSValue :=
  JObj {[ "status" := JStr "error";
          "message" := JStr "Forbidden: Admin access required" ]}.

(** How a block ends: by a [return] of the enclosing function, or by falling
    through to the statement after it. *)
Inductive Flow : Type := Returned | Fallthrough.

(** ** The middlewares *)

Section Middleware.

Variable ObjectId : ObjectIdClass.
Variable config : Config.

Definition log : string -> Level -> M unit := createLogger (logger config).

Definition attachUser (next : M unit) : M unit :=
  r ← get_req;
  log ("attachUser: Checking session for " +:+ toString (path_of r)
       +:+ " - Session ID: " +:+ toString (sessionId_of r)) Info;;
  set_user JNull;;
  flow ← match session r with
         | Some s =>
             if truthy (userId s) then
               log ("attachUser: Session found with userId: " +:+ toString (userId s)) Info;;
               try_catch
                 (db ← call CallDbGetter (dbGetter config r);
                  match db with
                  | None =>
                      log "attachUser: Database connection not available" Error;;
                      next;; mret Returned
                  | Some db =>
                      usersColl ← call (CallCollection (usersCollection config))
                                       (collection db (usersCollection config));
                      if negb (isValid ObjectId (userId s)) then
                        log ("attachUser: Invalid userId format in session: "
                             +:+ toString (userId s)) Error;;
                        next;; mret Returned
                      else
                        key ← lift (newObjectId ObjectId (userId s));
                        user ← call (CallFindOne key) (findOne usersColl key);
                        if truthy user then
                          log ("attachUser: User found: " +:+ toString (getProp user "name")
                               +:+ " (" +:+ toString (getProp user "email") +:+ ")") Info;;
                          set_user (snapshot user);;
                          mret Fallthrough
                        else
                          log ("attachUser: No user found for userId: "
                               +:+ toString (userId s)) Error;;
                          mret Fallthrough
                  end)
                 (fun err =>
                    log ("attachUser: Error fetching user: " +:+ message err) Error;;
                    mret Fallthrough)
             else
               log "attachUser: No session or userId found" Info;;
               mret Fallthrough
         | None =>
             log "attachUser: No session or userId found" Info;;
             mret Fallthrough
         end;
  match flow with
  | Returned => mret tt
  | Fallthrough => next
  end.

(** The body of [requireAuth]; its result is what it has left pending with
    the session store when it returns. *)
Definition requireAuth_body (next : M unit) : M Pending :=
  r ← get_req;
  log ("requireAuth: Path: " +:+ toString (path_of r)
       +:+ ", Session ID: " +:+ toString (sessionId_of r)) Info;;
  match session r with
  | None =>
      log "requireAuth: req.session is undefined. Ensure express-session is applied before auth middleware." Error;;
      if isApiRequest r then
        emit (EStatus 401);; emit (EJson unauthorized_body);; mret []
      else
        emit (ERedirect (loginRedirectUrl config));; mret []
  | Some s =>
      if negb (truthy (userId s)) then
        log ("requireAuth: No user ID for session. Path: " +:+ toString (path_of r)) Info;;
        if isApiRequest r then
          emit (EStatus 401);; emit (EJson unauthorized_body);; mret []
        else
          try_catch
            (set_returnTo (js_or (opt_to_js (originalUrl r)) (opt_to_js (url r))))
            (fun e =>
               log ("requireAuth: Failed to set returnTo on session: "
                    +:+ error_toString e) Error);;
          match save s with
          | Some verdict =>
              session_save verdict (fun err =>
                match err with
                | Some e =>
                    log ("requireAuth: ERROR SAVING SESSION: " +:+ error_toString e) Error
                | None => mret tt
                end;;
                emit (ERedirect (loginRedirectUrl config)))
          | None =>
              emit (ERedirect (loginRedirectUrl config));; mret []
          end
      else
        next;; mret []
  end.

(** A call of [requireAuth] together with the store's report on the save it
    started: the body runs to its end, then the pending callback runs. *)
Definition requireAuth (next : M unit) : M unit :=
  pending ← requireAuth_body next;
  settle pending.

Definition optionalAuth (next : M unit) : M unit :=
  r ← get_req;
  log ("optionalAuth: Path: " +:+ toString (path_of r)) Info;;
  attachUser (next;; mret tt).

Definition requireAdmin (next : M unit) : M unit :=
  r ← get_req;
  user ← get_user;
  if truthy (js_and user (getProp user "isAdmin")) then
    next
  else if isApiRequest r then
    emit (EStatus 403);; emit (EJson forbidden_body)
  else
    emit (ERedirect "/").

End Middleware.

(** ** Session configuration *)

(** The options of [createSessionConfig]; an absent key is [JUndefined]. *)
Record SessionOptions : Type := mkSessionOptions {
  mongoUri : JSValue;
  secret : JSValue;
  isProduction : JSValue;
  maxAge : JSValue
}.

Record Cookie : Type := mkCookie {
  cookie_maxAge : JSValue;
  cookie_httpOnly : bool;
  cookie_sameSite : string;
  cookie_secure : JSValue
}.

Record SessionConfig : Type := mkSessionConfig {
  sc_name : string;
  sc_secret : JSValue;
  sc_resave : bool;
  sc_saveUninitialized : bool;
  sc_databaseName : string;
  sc_collection : string;
  sc_cookie : Cookie
}.

(** A destructuring default [x = d] replaces [undefined] only. *)
Definition or_default (v d : JSValue) : JSValue :=
  match v with
  | JUndefined => d
  | _ => v
  end.

Definition createSessionConfig (options : SessionOptions) : Outcome SessionConfig :=
  let isProduction := or_default (isProduction options) (JBool false) in
  let maxAge := or_default (maxAge options) (JNum (1000 * 60 * 60 * 24)) in
  if negb (truthy (mongoUri options)) then
    Throws (new_Error "dataapi-auth: mongoUri is required for session config")
  else if negb (truthy (secret options)) then
    Throws (new_Error "dataapi-auth: secret is required for session config")
  else
    let SESSION_DB_NAME := if truthy isProduction then "datas" else "devdatas" in
    Returns (mkSessionConfig "data-api.sid" (secret options) false false
               SESSION_DB_NAME "mySessions"
               (mkCookie maxAge true "lax" isProduction)).

(** ** Reading a run *)

(** The events that answer the request. *)
Definition is_response (e : Event) : bool :=
  match e with
  | EStatus _ | EJson _ | ERedirect _ => true
  | _ => false
  end.

Definition is_next (e : Event) : bool :=
  match e with
  | ENext => true
  | _ => false
  end.

Definition is_session_write (e : Event) : bool :=
  match e with
  | ESetReturnTo _ | ESessionSave | ESaveCallback _ => true
  | _ => false
  end.

(** What the client and the rest of the pipeline see of a run: the response
    calls and the calls of [next], in order. *)
Definition outward (evs : list Event) : list Event :=
  List.filter (fun e => is_response e || is_next e) evs.

(** A run rejects the request when it answers it and does not call [next]. *)
Definition rejected (evs : list Event) : bool :=
  existsb is_response evs && negb (existsb is_next evs).

(** The events of a run that touch the session. *)
Definition session_writes (evs : list Event) : list Event :=
  List.filter is_session_write evs.

(** The events of one call [log(message, level)]. *)
Definition log_events (cfg : Config) (message : string) (level : Level) : list Event :=
  if logger cfg then
    [ELog (match level with Error => "[AUTH ERROR]" | Info => "[AUTH]" end
           +:+ " " +:+ message)]
  else [].

(** How the chain session, store accessor, identifier check, lookup ends for
    a request. *)
Inductive Resolution : Type :=
| NoSessionUser                 (* no session, or no userId in it *)
| NoHandle                      (* the accessor returned no handle *)
| Malformed                     (* ObjectId.isValid rejected the userId *)
| NotFound (key : JSValue)      (* findOne returned no record for key *)
| Failed (e : JSError)          (* the accessor, the handle or the lookup threw *)
| Found (user : JSValue).

Definition resolution (oid : ObjectIdClass) (cfg : Config) (r : Request) : Resolution :=
  match session r with
  | None => NoSessionUser
  | Some s =>
      if truthy (userId s) then
        match dbGetter cfg r with
        | Throws e => Failed e
        | Returns None => NoHandle
        | Returns (Some db) =>
            match collection db (usersCollection cfg) with
            | Throws e => Failed e
            | Returns coll =>
                if isValid oid (userId s) then
                  match newObjectId oid (userId s) with
                  | Throws e => Failed e
                  | Returns key =>
                      match findOne coll key with
                      | Throws e => Failed e
                      | Returns user => if truthy user then Found user else NotFound key
                      end
                  end
                else Malformed
            end
        end
      else NoSessionUser
  end.

(** The identity a resolution stands for: a snapshot of the record found,
    and no identity in every other case. *)
Definition identity_of (res : Resolution) : JSValue :=
  match res with
  | Found user => snapshot user
  | _ => JNull
  end.

(** An unauthenticated request, as [requireAuth] sees it. *)
Definition unauthenticated (r : Request) : bool :=
  match session r with
  | Some s => negb (truthy (userId s))
  | None => true
  end.

(** The fields of the Identity Snapshot. *)
Definition allow_list : gset string := {[ "_id"; "name"; "email"; "isAdmin" ]}.

(** A continuation that is the plain call of [next]. *)
Definition plain_next (next : M unit) : Prop :=
  forall c, next c = mkRun (Returns tt) c [ENext].

(** The value [requireAuth] assigns to [session.returnTo]:
    [req.originalUrl || req.url]. *)
Definition return_target (r : Request) : JSValue :=
  js_or (opt_to_js (originalUrl r)) (opt_to_js (url r)).

(** The events of the login redirect of an interactive request whose session
    [s] has no user identifier, in program order: recording the return path,
    saving the session, redirecting. *)
Definition return_path_events (config : Config) (r : Request) (s : Session) : list Event :=
  log_events config
    ("requireAuth: Path: " +:+ toString (path_of r)
     +:+ ", Session ID: " +:+ toString (sessionId_of r)) Info
  ++ log_events config
       ("requireAuth: No user ID for session. Path: " +:+ toString (path_of r)) Info
  ++ [ESetReturnTo (return_target r)]
  ++ match returnTo_setter s with
     | Some e =>
         log_events config
           ("requireAuth: Failed to set returnTo on session: " +:+ error_toString e) Error
     | None => []
     end.

Definition save_events (config : Config) (s : Session) : list Event :=
  match save s with
  | Some verdict =>
      [ESessionSave; ESaveCallback verdict]
      ++ match verdict with
         | Some e =>
             log_events config
               ("requireAuth: ERROR SAVING SESSION: " +:+ error_toString e) Error
         | None => []
         end
  | None => []
  end.

Definition login_redirect_events (config : Config) (r : Request) (s : Session) : list Event :=
  return_path_events config r s ++ save_events config s
  ++ [ERedirect (loginRedirectUrl config)].

(** ** Further readings of a run *)

Definition is_log (e : Event) : bool :=
  match e with
  | ELog _ => true
  | _ => false
  end.

(** A run with the logger calls left out. *)
Definition without_logs (evs : list Event) : list Event :=
  List.filter (fun e => negb (is_log e)) evs.

(** The calls a run makes to the store, in order. *)
Definition store_calls (evs : list Event) : list StoreCall :=
  flat_map (fun e => match e with EStore c => [c] | _ => [] end) evs.

(** The same deployment without a logger function. *)
Definition quiet (cfg : Config) : Config :=
  mkConfig (dbGetter cfg) (loginRedirectUrl cfg) (usersCollection cfg) false.

(** The two rejections, as the caller sees them. *)
Definition unauthorized_response (cfg : Config) (r : Request) : list Event :=
  if isApiRequest r then [EStatus 401; EJson unauthorized_body]
  else [ERedirect (loginRedirectUrl cfg)].

Definition forbidden_response (r : Request) : list Event :=
  if isApiRequest r then [EStatus 403; EJson forbidden_body]
  else [ERedirect "/"].

(** The store calls of the lookup for a request, read off the accessor, the
    handle and the ObjectId class: the accessor when the session has a user,
    then the collection when there is a handle, then [findOne] when the
    identifier is valid and its ObjectId could be built. *)
Definition lookup_calls (oid : ObjectIdClass) (cfg : Config) (r : Request) : list StoreCall :=
  match session r with
  | None => []
  | Some s =>
      if truthy (userId s) then
        CallDbGetter ::
        match dbGetter cfg r with
        | Returns (Some db) =>
            CallCollection (usersCollection cfg) ::
            match collection db (usersCollection cfg) with
            | Returns _ =>
                if isValid oid (userId s) then
                  match newObjectId oid (userId s) with
                  | Returns key => [CallFindOne key]
                  | Throws _ => []
                  end
                else []
            | Throws _ => []
            end
        | _ => []
        end
      else []
  end.

(** The chain of an admin route as the README wires it:
    [app.use(attachUser)], then [router.get(path, requireAuth, requireAdmin,
    handler)]; each middleware is the continuation of the one before. *)
Definition admin_route (oid : ObjectIdClass) (cfg : Config) (handler : M unit) : M unit :=
  attachUser oid cfg (requireAuth cfg (requireAdmin handler)).

(** What a run does after its first call of [next]. *)
Fixpoint after_first_next (evs : list Event) : list Event :=
  match evs with
  | [] => []
  | ENext :: rest => rest
  | _ :: rest => after_first_next rest
  end.

(** A continuation that is reached and then throws [e]. *)
Definition throwing_next (e : JSError) (next : M unit) : Prop :=
  forall c, next c = mkRun (Throws e) c [ENext].

(** ** A concrete deployment, for running the middlewares *)

Module Sample.

Definition is_hex (a : Ascii.ascii) : bool :=
  let n := Ascii.nat_of_ascii a in
  ((48 <=? n) && (n <=? 57) || (97 <=? n) && (n <=? 102) || (65 <=? n) && (n <=? 70))%nat.

(** An ObjectId class accepting ObjectId instances and 24-digit hex strings. *)
Definition hexObjectId : ObjectIdClass :=
  mkObjectIdClass
    (fun v => match v with
              | JObjectId _ => true
              | JStr s => (String.length s =? 24)%nat && forallb is_hex (list_ascii_of_string s)
              | _ => false
              end)
    (fun v => match v with
              | JObjectId h => Returns (JObjectId h)
              | JStr s => Returns (JObjectId s)
              | _ => Throws (mkError "BSONError" "input must be a 24 character hex string")
              end).

Definition alice_id : string := "64b7f0c2a1d3e4f5a6b7c8d9".
Definition bob_id : string := "64b7f0c2a1d3e4f5a6b7c8da".
Definition carol_id : string := "64b7f0c2a1d3e4f5a6b7c8db".
Definition ghost_id : string := "0123456789abcdef01234567".

(** alice is an administrator with a stored password hash; bob has no
    [isAdmin] field; carol's flag is the number 1. *)
Definition alice : JSValue :=
  JObj {[ "_id" := JObjectId alice_id; "name" := JStr "Alice";
          "email" := JStr "alice@example.org"; "isAdmin" := JBool true;
          "password" := JStr "$2b$10$abcdefghijklmnopqrstuv" ]}.

Definition bob : JSValue :=
  JObj {[ "_id" := JObjectId bob_id; "name" := JStr "Bob";
          "email" := JStr "bob@example.org";
          "password" := JStr "$2b$10$zyxwvutsrqponmlkjihgfe" ]}.

Definition carol : JSValue :=
  JObj {[ "_id" := JObjectId carol_id; "name" := JStr "Carol";
          "email" := JStr "carol@example.org"; "isAdmin" := JNum 1 ]}.

Definition users : gmap string JSValue :=
  {[ alice_id := alice; bob_id := bob; carol_id := carol ]}.

Definition users_collection : Collection :=
  mkCollection (fun key =>
    match key with
    | JObjectId h => Returns (default JNull (users !! h))
    | _ => Returns JNull
    end).

Definition db : Db :=
  mkDb (fun name =>
    if String.eqb name "users" then Returns users_collection
    else Returns (mkCollection (fun _ => Returns JNull))).

Definition config : Config :=
  mkConfig (fun _ => Returns (Some db)) DEFAULT_loginRedirectUrl DEFAULT_usersCollection false.

Definition verbose : Config :=
  mkConfig (fun _ => Returns (Some db)) DEFAULT_loginRedirectUrl DEFAULT_usersCollection true.

(** A deployment whose store accessor has no connection, and one whose
    lookups fail. *)
Definition offline : Config :=
  mkConfig (fun _ => Returns None) DEFAULT_loginRedirectUrl DEFAULT_usersCollection false.

Definition broken : Config :=
  mkConfig (fun _ => Returns (Some (mkDb (fun _ =>
              Returns (mkCollection (fun _ => Throws (mkError "MongoNetworkError" "connection timed out")))))))
           DEFAULT_loginRedirectUrl DEFAULT_usersCollection true.

Definition session_of (uid : JSValue) : Session :=
  mkSession uid JUndefined ∅ None (Some None).

Definition request (target : string) (s : option Session) : Ctx :=
  mkCtx (mkRequest (Some target) (Some target) (Some target) (Some "sid-1") s) JUndefined.

End Sample.

Import Sample.

Definition login_url : string := "https://data.specialblend.ca/login".

(** A session whose user has been deleted from the store. *)
Definition stale_request : Ctx :=
  request "/admin/devices" (Some (session_of (JStr ghost_id))).

(** Anonymous visits: a session without user, on a page and on the API, and
    a request that never went through the session layer. *)
Definition anonymous_page : Ctx := request "/admin/devices" (Some (session_of JUndefined)).
Definition anonymous_api : Ctx := request "/api/devices" (Some (session_of JUndefined)).
Definition sessionless_page : Ctx := request "/admin/devices" None.

(** A session whose store rejects the save and on which [returnTo] cannot be
    assigned. *)
Definition failing_session : Session :=
  mkSession JUndefined JUndefined ∅
            (Some (mkError "TypeError" "Cannot assign to read only property"))
            (Some (Some (mkError "MongoError" "write failed"))).

(** A handler that throws as soon as it is reached. *)
Definition crashing_handler : M unit :=
  emit ENext;; lift (Throws (mkError "Error" "handler crashed")).

(** * Properties *)

Section Properties.

Variable ObjectId : ObjectIdClass.
Variable config : Config.

Lemma log_run (message : string) (level : Level) (c : Ctx) :
  log config message level c = mkRun (Returns tt) c (log_events config message level).
Proof.
  unfold log, createLogger, log_events. destruct (logger config); reflexivity.
Qed.

Lemma outward_log (message : string) (level : Level) :
  outward (log_events config message level) = [].
Proof.
  unfold log_events. destruct (logger config); reflexivity.
Qed.

Lemma session_writes_log (message : string) (level : Level) :
  session_writes (log_events config message level) = [].
Proof.
  unfold log_events. destruct (logger config); reflexivity.
Qed.

Lemma outward_app (l l' : list Event) :
  outward (l ++ l') = outward l ++ outward l'.
Proof. apply List.filter_app. Qed.

Lemma session_writes_app (l l' : list Event) :
  session_writes (l ++ l') = session_writes l ++ session_writes l'.
Proof. apply List.filter_app. Qed.

Lemma outward_cons (e : Event) (l : list Event) :
  outward (e :: l) = if is_response e || is_next e then e :: outward l else outward l.
Proof. reflexivity. Qed.

Lemma session_writes_cons (e : Event) (l : list Event) :
  session_writes (e :: l) = if is_session_write e then e :: session_writes l else session_writes l.
Proof. reflexivity. Qed.

(** One step of symbolic execution of a middleware body. *)
Ltac step :=
  cbn -[log_events String.append snapshot];
  repeat (rewrite log_run; cbn -[log_events String.append snapshot]);
  repeat progress
    (unfold mbind, M_bind, mret, M_ret, emit;
     cbn -[log_events String.append snapshot];
     repeat (rewrite log_run; cbn -[log_events String.append snapshot])).

Ltac unfold_monad :=
  unfold session_save;
  unfold mbind, M_bind, mret, M_ret, get_req, get_user, set_user, try_catch,
    call, lift, emit.

Ltac filter_events :=
  repeat progress
    (rewrite ?outward_app, ?session_writes_app, ?outward_log, ?session_writes_log,
       ?outward_cons, ?session_writes_cons;
     cbn [outward session_writes List.filter orb is_response is_next
          is_session_write app]).

Lemma call_next_plain : plain_next call_next.
Proof. intros c. reflexivity. Qed.

Lemma wrapped_next_plain : plain_next (call_next;; mret tt).
Proof. intros c. reflexivity. Qed.

(** The whole of what [attachUser] does, for a continuation that is the
    plain call of [next]: it returns, leaves the request as it was, publishes
    the identity of the resolution, calls [next] once and answers nothing,
    touches no session, and its first effect after the opening log line is
    the reset of the slot. *)
Lemma attachUser_run (next : M unit) (c : Ctx) :
  plain_next next ->
  let r := attachUser ObjectId config next c in
  outcome r = Returns tt /\
  final r = with_user (identity_of (resolution ObjectId config (req c))) c /\
  outward (events r) = [ENext] /\
  session_writes (events r) = [] /\
  exists rest,
    events r =
      log_events config
        ("attachUser: Checking session for " +:+ toString (path_of (req c))
         +:+ " - Session ID: " +:+ toString (sessionId_of (req c))) Info
      ++ ESetUser JNull :: rest.
Proof.
  intros Hnext. unfold attachUser, resolution, with_user. unfold_monad. step.
  destruct (session (req c)) as [s|]; step.
  2: { rewrite Hnext. step. filter_events. repeat split; eauto. }
  destruct (truthy (userId s)); step.
  2: { rewrite Hnext. step. filter_events. repeat split; eauto. }
  destruct (dbGetter config (req c)) as [[db|]|e]; step;
    [ | rewrite ?Hnext; step; filter_events; repeat split; eauto ..].
  destruct (collection db (usersCollection config)) as [coll|e]; step;
    [ | rewrite ?Hnext; step; filter_events; repeat split; eauto ].
  destruct (isValid ObjectId (userId s)); step;
    [ | rewrite ?Hnext; step; filter_events; repeat split; eauto ].
  destruct (newObjectId ObjectId (userId s)) as [key|e]; step;
    [ | rewrite ?Hnext; step; filter_events; repeat split; eauto ].
  destruct (findOne coll key) as [user|e]; step;
    [ | rewrite ?Hnext; step; filter_events; repeat split; eauto ].
  destruct (truthy user); step; rewrite ?Hnext; step; filter_events;
    repeat split; eauto.
Qed.

Lemma optionalAuth_run (c : Ctx) :
  let r := attachUser ObjectId config (call_next;; mret tt) c in
  let o := optionalAuth ObjectId config call_next c in
  outcome o = outcome r /\ final o = final r /\
  events o =
    log_events config ("optionalAuth: Path: " +:+ toString (path_of (req c))) Info
    ++ events r.
Proof.
  cbv zeta. unfold optionalAuth.
  set (k := call_next;; mret tt).
  unfold mbind, M_bind, get_req.
  cbn -[attachUser log_events String.append].
  rewrite log_run. cbn -[attachUser log_events String.append].
  destruct (attachUser ObjectId config k c) as [[a|e] c' evs]; cbn; auto.
Qed.

(** C6: for every request, [attachUser] and [optionalAuth] return without
    throwing, call [next] exactly once and answer nothing themselves; the
    identity they publish is that of the resolution, which is no identity
    when there is no session user, when the accessor gives no handle, when
    the identifier is malformed, when no record is found and when any step
    of the lookup throws. *)
Theorem resolver_and_optional_gate_never_block (c : Ctx) :
  let r := attachUser ObjectId config call_next c in
  let o := optionalAuth ObjectId config call_next c in
  (outcome r = Returns tt /\ outward (events r) = [ENext] /\
   locals_user (final r) = identity_of (resolution ObjectId config (req c))) /\
  (outcome o = Returns tt /\ outward (events o) = [ENext] /\
   locals_user (final o) = identity_of (resolution ObjectId config (req c))) /\
  identity_of NoSessionUser = JNull /\
  identity_of NoHandle = JNull /\
  identity_of Malformed = JNull /\
  (forall key, identity_of (NotFound key) = JNull) /\
  (forall e, identity_of (Failed e) = JNull).
Proof.
  cbv zeta.
  destruct (attachUser_run call_next c call_next_plain) as (Ho & Hf & Hw & _).
  destruct (attachUser_run (call_next;; mret tt) c wrapped_next_plain)
    as (Ho' & Hf' & Hw' & _).
  split; [ | split ].
  - rewrite Ho, Hw, Hf. auto.
  - destruct (optionalAuth_run c) as (Eo & Ef & Ee).
    rewrite Eo, Ef, Ee, Ho', Hf', outward_app, outward_log, Hw'. auto.
  - repeat split.
Qed.

(** C9: a second run of [attachUser] on the request, started from where the
    first one ended, finds the request unchanged and publishes the same
    Identity Snapshot as the first. *)
Theorem attachUser_idempotent (c : Ctx) :
  let first := attachUser ObjectId config call_next c in
  let second := attachUser ObjectId config call_next (final first) in
  req (final first) = req c /\
  locals_user (final second) = locals_user (final first).
Proof.
  cbv zeta.
  destruct (attachUser_run call_next c call_next_plain) as (_ & Hf & _).
  destruct (attachUser_run call_next
              (final (attachUser ObjectId config call_next c)) call_next_plain)
    as (_ & Hf' & _).
  rewrite Hf'. rewrite Hf. split; reflexivity.
Qed.

(** C10: whatever value [stale] earlier processing left in [res.locals.user],
    the first effect of [attachUser] after its opening log line is the
    assignment of [null] to the slot, before any store call; when it returns
    the slot holds the snapshot of the record found now, or [null] when the
    resolution did not find one, and never [stale]. *)
Theorem attachUser_resets_slot (c : Ctx) (stale : JSValue) :
  let r := attachUser ObjectId config call_next (with_user stale c) in
  (exists rest,
     events r =
       log_events config
         ("attachUser: Checking session for " +:+ toString (path_of (req c))
          +:+ " - Session ID: " +:+ toString (sessionId_of (req c))) Info
       ++ ESetUser JNull :: rest) /\
  locals_user (final r) =
    match resolution ObjectId config (req c) with
    | Found user => snapshot user
    | _ => JNull
    end /\
  final r = final (attachUser ObjectId config call_next (with_user JNull c)).
Proof.
  cbv zeta.
  destruct (attachUser_run call_next (with_user stale c) call_next_plain)
    as (_ & Hf & _ & _ & Hev).
  destruct (attachUser_run call_next (with_user JNull c) call_next_plain)
    as (_ & Hf0 & _).
  split; [exact Hev | ]. rewrite Hf, Hf0. split; reflexivity.
Qed.

(** C8: when the lookup finds a record [user], the published snapshot is an
    object whose fields are exactly [_id], [name], [email] and [isAdmin],
    each read from the record; no other property of the record, such as a
    password hash or a token, is in it; [isAdmin] is the record's value when
    that is truthy and [false] otherwise. *)
Theorem snapshot_allow_list (c : Ctx) (user : JSValue) :
  resolution ObjectId config (req c) = Found user ->
  exists fields : gmap string JSValue,
    locals_user (final (attachUser ObjectId config call_next c)) = JObj fields /\
    dom fields = allow_list /\
    fields !! "_id" = Some (getProp user "_id") /\
    fields !! "name" = Some (getProp user "name") /\
    fields !! "email" = Some (getProp user "email") /\
    fields !! "isAdmin" =
      Some (if truthy (getProp user "isAdmin") then getProp user "isAdmin"
            else JBool false) /\
    fields !! "password" = None /\
    fields !! "passwordHash" = None /\
    fields !! "token" = None /\
    (forall k, k ∉ allow_list -> fields !! k = None).
Proof.
  intros Hres.
  destruct (attachUser_run call_next c call_next_plain) as (_ & Hf & _).
  rewrite Hf, Hres. cbn [with_user locals_user identity_of]. unfold snapshot.
  eexists. split; [reflexivity | ].
  split; [ unfold allow_list; rewrite !dom_insert_L, dom_singleton_L; set_solver | ].
  repeat split; try reflexivity.
  intros k Hk. unfold allow_list in Hk.
  rewrite !lookup_insert_ne, lookup_singleton_ne; [done | set_solver ..].
Qed.

(** What [requireAuth] does with a session that carries a user identifier:
    it calls [next] and nothing else. *)
Lemma requireAuth_authenticated (c : Ctx) (s : Session) :
  session (req c) = Some s ->
  truthy (userId s) = true ->
  let g := requireAuth config call_next c in
  outcome g = Returns tt /\ final g = c /\
  outward (events g) = [ENext] /\ session_writes (events g) = [].
Proof.
  intros Hs Hu. unfold requireAuth, requireAuth_body. unfold_monad. step.
  rewrite Hs, Hu. step. filter_events. auto.
Qed.

(** ... and with a request that has no session at all. *)
Lemma requireAuth_no_session (c : Ctx) :
  session (req c) = None ->
  let g := requireAuth config call_next c in
  outcome g = Returns tt /\ final g = c /\
  session_writes (events g) = [] /\
  outward (events g) =
    if isApiRequest (req c) then [EStatus 401; EJson unauthorized_body]
    else [ERedirect (loginRedirectUrl config)].
Proof.
  intros Hs. unfold requireAuth, requireAuth_body. unfold_monad. step.
  rewrite Hs. step.
  destruct (isApiRequest (req c)); step; filter_events; auto.
Qed.

(** ... and with a programmatic request whose session has no user identifier. *)
Lemma requireAuth_api_rejected (c : Ctx) (s : Session) :
  session (req c) = Some s ->
  truthy (userId s) = false ->
  isApiRequest (req c) = true ->
  let g := requireAuth config call_next c in
  outcome g = Returns tt /\ final g = c /\
  session_writes (events g) = [] /\
  outward (events g) = [EStatus 401; EJson unauthorized_body].
Proof.
  intros Hs Hu Hapi. unfold requireAuth, requireAuth_body. unfold_monad. step.
  rewrite Hs, Hu. step. rewrite Hapi. step. filter_events. auto.
Qed.

Lemma requireAuth_login_redirect (c : Ctx) (s : Session) :
  session (req c) = Some s ->
  truthy (userId s) = false ->
  isApiRequest (req c) = false ->
  let g := requireAuth config call_next c in
  outcome g = Returns tt /\
  locals_user (final g) = locals_user c /\
  req (final g) =
    match returnTo_setter s with
    | None => with_session (with_returnTo (return_target (req c)) s) (req c)
    | Some _ => req c
    end /\
  events g = login_redirect_events config (req c) s.
Proof.
  intros Hs Hu Hapi.
  unfold requireAuth, requireAuth_body, login_redirect_events, return_path_events, save_events,
    return_target.
  unfold_monad. step.
  rewrite Hs, Hu. step. rewrite Hapi. step.
  unfold set_returnTo. step. rewrite Hs. step.
  destruct (returnTo_setter s) as [e|]; step;
    destruct (save s) as [[e'|]|]; step;
    repeat progress (rewrite <- ?app_assoc; cbn [app]); auto.
Qed.

Lemma resolution_has_session_user (r : Request) :
  resolution ObjectId config r <> NoSessionUser ->
  exists s, session r = Some s /\ truthy (userId s) = true.
Proof.
  unfold resolution. intros H.
  destruct (session r) as [s|]; [ | congruence ].
  destruct (truthy (userId s)) eqn:Hu; [ eauto | congruence ].
Qed.

(** C1 (as the code has it): when the lookup for the session's user
    identifier returns no record, [attachUser] publishes no identity and
    continues; [requireAuth], which tests only that the session carries a
    user identifier and never consults the store or the published identity,
    then calls [next] as well and answers nothing: the request passes the
    Mandatory Gate with [res.locals.user] null. *)
Theorem stale_session_passes_mandatory_gate (c : Ctx) (key : JSValue) :
  resolution ObjectId config (req c) = NotFound key ->
  let r := attachUser ObjectId config call_next c in
  let g := requireAuth config call_next (final r) in
  locals_user (final r) = JNull /\ outward (events r) = [ENext] /\
  outcome g = Returns tt /\ outward (events g) = [ENext] /\
  locals_user (final g) = JNull.
Proof.
  intros Hres. cbv zeta.
  destruct (attachUser_run call_next c call_next_plain) as (_ & Hf & Hw & _).
  destruct (resolution_has_session_user (req c)) as (s & Hs & Hu);
    [ rewrite Hres; discriminate | ].
  rewrite Hf, Hres in *. cbn [identity_of with_user locals_user].
  destruct (requireAuth_authenticated (with_user JNull c) s Hs Hu)
    as (Ho & Hfg & Hwg & _).
  rewrite Ho, Hfg, Hwg. auto.
Qed.

Lemma requireAdmin_run (c : Ctx) :
  let d := requireAdmin call_next c in
  outcome d = Returns tt /\ final d = c /\
  events d =
    if truthy (locals_user c) && truthy (getProp (locals_user c) "isAdmin")
    then [ENext]
    else if isApiRequest (req c)
         then [EStatus 403; EJson forbidden_body]
         else [ERedirect "/"].
Proof.
  unfold requireAdmin, call_next, js_and. unfold_monad. step.
  destruct (truthy (locals_user c)) eqn:Hu; step.
  - destruct (truthy (getProp (locals_user c) "isAdmin")); step.
    + auto.
    + destruct (isApiRequest (req c)); step; auto.
  - rewrite Hu. destruct (isApiRequest (req c)); step; auto.
Qed.

(** C3 (as the code has it): [requireAdmin] calls [next] exactly when
    [res.locals.user] is truthy and its [isAdmin] property is truthy, which
    the boolean [true] is and so is any other truthy value; a falsy or
    missing flag, or no identity, is a rejection: status 403 with the
    forbidden body for a request under [/api], a redirect to [/] for any
    other. It changes neither the request nor the slot. *)
Theorem requireAdmin_accepts_truthy_flag (c : Ctx) :
  let d := requireAdmin call_next c in
  outcome d = Returns tt /\ final d = c /\
  events d =
    if truthy (locals_user c) && truthy (getProp (locals_user c) "isAdmin")
    then [ENext]
    else if isApiRequest (req c)
         then [EStatus 403; EJson forbidden_body]
         else [ERedirect "/"].
Proof. exact (requireAdmin_run c). Qed.

Lemma isApiRequest_prefix (r : Request) :
  isApiRequest r =
    match originalUrl r with
    | Some p => String.prefix "/api" p
    | None => false
    end.
Proof.
  unfold isApiRequest, js_and. destruct (originalUrl r) as [[|a p]|]; reflexivity.
Qed.

(** C4 (as the code has it): whether a request is programmatic is decided by
    its original URL alone, by the prefix [/api]. An unauthenticated
    programmatic request is answered with status 401 and the body
    [{status: 'error', message: 'Unauthorized'}], and nothing is changed. An
    unauthenticated request on any other path is redirected to the login
    URL; when it has a session that accepts the assignment, [returnTo] of
    that session is set to [originalUrl || url] first; when it has no
    session, or the assignment throws, nothing is recorded. *)
Theorem mandatory_gate_rejection_shape (c : Ctx) :
  unauthenticated (req c) = true ->
  let g := requireAuth config call_next c in
  isApiRequest (req c) =
    match originalUrl (req c) with
    | Some p => String.prefix "/api" p
    | None => false
    end /\
  outcome g = Returns tt /\
  if isApiRequest (req c) then
    outward (events g) = [EStatus 401; EJson unauthorized_body] /\ final g = c
  else
    outward (events g) = [ERedirect (loginRedirectUrl config)] /\
    locals_user (final g) = locals_user c /\
    req (final g) =
      match session (req c) with
      | Some s =>
          match returnTo_setter s with
          | None => with_session (with_returnTo (return_target (req c)) s) (req c)
          | Some _ => req c
          end
      | None => req c
      end.
Proof.
  unfold unauthenticated. intros Hun. cbv zeta.
  split; [apply isApiRequest_prefix | ].
  destruct (session (req c)) as [s|] eqn:Hs.
  - apply negb_true_iff in Hun.
    destruct (isApiRequest (req c)) eqn:Hapi.
    + destruct (requireAuth_api_rejected c s Hs Hun Hapi) as (Ho & Hf & _ & Hw).
      auto.
    + destruct (requireAuth_login_redirect c s Hs Hun Hapi) as (Ho & Hl & Hr & He).
      split; [exact Ho | ]. split; [ | auto ].
      rewrite He. unfold login_redirect_events, return_path_events, save_events.
      filter_events.
      destruct (returnTo_setter s); destruct (save s) as [[e|]|];
        filter_events; reflexivity.
  - destruct (requireAuth_no_session c Hs) as (Ho & Hf & _ & Hw).
    split; [exact Ho | ]. rewrite Hw, Hf.
    destruct (isApiRequest (req c)); auto.
Qed.

(** What [session.save] defers: whatever the calling function still does
    after [save(cb)] comes before the store's report and the callback. *)
Lemma save_callback_follows_caller (verdict : option JSError)
    (cb : option JSError -> M unit) (after : M unit) (rest : list Event) (c : Ctx) :
  (forall c', after c' = mkRun (Returns tt) c' rest) ->
  let caller : M Pending :=
    session_save verdict cb ≫= (fun pending => after ≫= (fun _ => mret pending)) in
  events ((caller ≫= settle) c)
  = [ESessionSave] ++ rest ++ [ESaveCallback verdict] ++ events (cb verdict c).
Proof.
  intros Hafter. cbv zeta. unfold_monad. step. rewrite Hafter. step.
  destruct (cb verdict c) as [[[]|e] c' evs]; step;
    rewrite ?app_nil_r; repeat progress (rewrite <- ?app_assoc; cbn [app]); reflexivity.
Qed.

Lemma requireAuth_body_login_redirect (c : Ctx) (s : Session) :
  session (req c) = Some s ->
  truthy (userId s) = false ->
  isApiRequest (req c) = false ->
  events (requireAuth_body config call_next c) =
    return_path_events config (req c) s
    ++ match save s with
       | Some _ => [ESessionSave]
       | None => [ERedirect (loginRedirectUrl config)]
       end.
Proof.
  intros Hs Hu Hapi.
  unfold requireAuth_body, return_path_events, return_target. unfold_monad. step.
  rewrite Hs, Hu. step. rewrite Hapi. step.
  unfold set_returnTo. step. rewrite Hs. step.
  destruct (returnTo_setter s) as [e|]; step;
    destruct (save s) as [[e'|]|]; step;
    repeat progress (rewrite <- ?app_assoc; cbn [app]); auto.
Qed.

(** C7: when [requireAuth] rejects an interactive request that has a
    session, its events are, in this order: the assignment of [returnTo];
    the log of the failure if the assignment threw; when the session has a
    [save] function, the call of [save], then, after the body of
    [requireAuth] has returned, the store's callback, then the log of the
    error if the callback received one; the redirect to the login URL.
    With a [save] function the body of [requireAuth] returns without having
    answered: the redirect is issued by the callback, after the store has
    reported, and it is the last event and the only response. It is there
    whether or not the assignment or the save failed; [requireAuth] itself
    returns without throwing. *)
Theorem login_redirect_after_session_save (c : Ctx) (s : Session) :
  session (req c) = Some s ->
  truthy (userId s) = false ->
  isApiRequest (req c) = false ->
  let g := requireAuth config call_next c in
  let body := requireAuth_body config call_next c in
  outcome g = Returns tt /\
  outward (events g) = [ERedirect (loginRedirectUrl config)] /\
  outward (events body) =
    match save s with
    | Some _ => []
    | None => [ERedirect (loginRedirectUrl config)]
    end /\
  exists before saving,
    events g = before ++ saving ++ [ERedirect (loginRedirectUrl config)] /\
    events body =
      before ++ match save s with
                | Some _ => [ESessionSave]
                | None => [ERedirect (loginRedirectUrl config)]
                end /\
    outward before = [] /\
    session_writes before = [ESetReturnTo (return_target (req c))] /\
    saving =
      match save s with
      | Some verdict =>
          [ESessionSave; ESaveCallback verdict]
          ++ match verdict with
             | Some e =>
                 log_events config
                   ("requireAuth: ERROR SAVING SESSION: " +:+ error_toString e) Error
             | None => []
             end
      | None => []
      end /\
    forall e, returnTo_setter s = Some e ->
      exists before', before = before' ++
        log_events config
          ("requireAuth: Failed to set returnTo on session: " +:+ error_toString e) Error.
Proof.
  intros Hs Hu Hapi. cbv zeta.
  destruct (requireAuth_login_redirect c s Hs Hu Hapi) as (Ho & _ & _ & He).
  pose proof (requireAuth_body_login_redirect c s Hs Hu Hapi) as Hb.
  split; [exact Ho | ]. rewrite He, Hb. unfold login_redirect_events.
  assert (Hbefore : outward (return_path_events config (req c) s) = []).
  { unfold return_path_events. filter_events.
    destruct (returnTo_setter s); filter_events; reflexivity. }
  assert (Hsaving : outward (save_events config s) = []).
  { unfold save_events. destruct (save s) as [[e|]|]; filter_events; reflexivity. }
  split; [ rewrite !outward_app, Hbefore, Hsaving; reflexivity | ].
  split; [ rewrite outward_app, Hbefore; destruct (save s); reflexivity | ].
  exists (return_path_events config (req c) s), (save_events config s).
  split; [reflexivity | ]. split; [reflexivity | ]. split; [exact Hbefore | ].
  split.
  { unfold return_path_events. filter_events.
    destruct (returnTo_setter s); filter_events; reflexivity. }
  split; [reflexivity | ].
  intros e Hsetter. unfold return_path_events. rewrite Hsetter.
  eexists. rewrite !app_assoc. reflexivity.
Qed.

(** C2 (as the code has it): [attachUser], [optionalAuth] and [requireAdmin]
    leave the request, and with it the session, exactly as they found it and
    never call [save]. [requireAuth] does the same except when it redirects
    an interactive request whose session has no user identifier: then it
    assigns [returnTo] on that session and calls its [save] when it has one;
    the session stays in place and its user identifier, its other data and
    its [save] are those it had. *)
Theorem session_written_only_on_login_redirect (c : Ctx) :
  let a := attachUser ObjectId config call_next c in
  let o := optionalAuth ObjectId config call_next c in
  let d := requireAdmin call_next c in
  let g := requireAuth config call_next c in
  (req (final a) = req c /\ session_writes (events a) = []) /\
  (req (final o) = req c /\ session_writes (events o) = []) /\
  (req (final d) = req c /\ session_writes (events d) = []) /\
  match session (req c) with
  | None => req (final g) = req c /\ session_writes (events g) = []
  | Some s =>
      if truthy (userId s) || isApiRequest (req c) then
        req (final g) = req c /\ session_writes (events g) = []
      else
        req (final g) =
          match returnTo_setter s with
          | None => with_session (with_returnTo (return_target (req c)) s) (req c)
          | Some _ => req c
          end /\
        session_writes (events g) =
          ESetReturnTo (return_target (req c))
          :: match save s with
             | Some verdict => [ESessionSave; ESaveCallback verdict]
             | None => []
             end
  end.
Proof.
  cbv zeta.
  destruct (attachUser_run call_next c call_next_plain) as (_ & Hf & _ & Hsw & _).
  destruct (attachUser_run (call_next;; mret tt) c wrapped_next_plain)
    as (_ & Hf' & _ & Hsw' & _).
  destruct (requireAdmin_run c) as (_ & Hfd & Hed).
  split; [ rewrite Hf, Hsw; auto | ].
  split; [ destruct (optionalAuth_run c) as (_ & Ef & Ee);
           rewrite Ef, Ee, Hf', session_writes_app, session_writes_log, Hsw'; auto | ].
  split.
  { rewrite Hfd, Hed. split; [reflexivity | ].
    destruct (truthy (locals_user c) && truthy (getProp (locals_user c) "isAdmin"));
      [ | destruct (isApiRequest (req c)) ]; reflexivity. }
  destruct (session (req c)) as [s|] eqn:Hs.
  - destruct (truthy (userId s)) eqn:Hu; cbn [orb].
    + destruct (requireAuth_authenticated c s Hs Hu) as (_ & Hfg & _ & Hwg).
      rewrite Hfg, Hwg. auto.
    + destruct (isApiRequest (req c)) eqn:Hapi.
      * destruct (requireAuth_api_rejected c s Hs Hu Hapi) as (_ & Hfg & Hwg & _).
        rewrite Hfg, Hwg. auto.
      * destruct (requireAuth_login_redirect c s Hs Hu Hapi) as (_ & _ & Hr & He).
        split; [exact Hr | ]. rewrite He.
        unfold login_redirect_events, return_path_events, save_events.
        filter_events.
        destruct (returnTo_setter s); destruct (save s) as [[e|]|];
          filter_events; reflexivity.
  - destruct (requireAuth_no_session c Hs) as (_ & Hfg & Hwg & _).
    rewrite Hfg, Hwg. auto.
Qed.

(** ** More about the middlewares *)

Lemma store_calls_app (l l' : list Event) :
  store_calls (l ++ l') = store_calls l ++ store_calls l'.
Proof. apply flat_map_app. Qed.

Lemma store_calls_log (message : string) (level : Level) :
  store_calls (log_events config message level) = [].
Proof. unfold log_events. destruct (logger config); reflexivity. Qed.

Lemma store_calls_cons (e : Event) (l : list Event) :
  store_calls (e :: l) = match e with EStore c => [c] | _ => [] end ++ store_calls l.
Proof. reflexivity. Qed.

Lemma without_logs_app (l l' : list Event) :
  without_logs (l ++ l') = without_logs l ++ without_logs l'.
Proof. apply List.filter_app. Qed.

Lemma without_logs_log (message : string) (level : Level) :
  without_logs (log_events config message level) = [].
Proof. unfold log_events. destruct (logger config); reflexivity. Qed.

Lemma without_logs_cons (e : Event) (l : list Event) :
  without_logs (e :: l) = if negb (is_log e) then e :: without_logs l else without_logs l.
Proof. reflexivity. Qed.

Ltac filter_calls :=
  repeat progress
    (rewrite ?store_calls_app, ?store_calls_log, ?store_calls_cons,
       ?without_logs_app, ?without_logs_log, ?without_logs_cons;
     cbn [store_calls without_logs flat_map List.filter negb is_log app]).

Lemma attachUser_store_calls (c : Ctx) :
  store_calls (events (attachUser ObjectId config call_next c))
  = lookup_calls ObjectId config (req c).
Proof.
  unfold attachUser, lookup_calls, call_next. unfold_monad. step.
  destruct (session (req c)) as [s|]; step; [ | filter_calls; reflexivity ].
  destruct (truthy (userId s)); step; [ | filter_calls; reflexivity ].
  destruct (dbGetter config (req c)) as [[db|]|e]; step;
    [ | filter_calls; reflexivity .. ].
  destruct (collection db (usersCollection config)) as [coll|e]; step;
    [ | filter_calls; reflexivity ].
  destruct (isValid ObjectId (userId s)); step; [ | filter_calls; reflexivity ].
  destruct (newObjectId ObjectId (userId s)) as [key|e]; step;
    [ | filter_calls; reflexivity ].
  destruct (findOne coll key) as [user|e]; step; [ | filter_calls; reflexivity ].
  destruct (truthy user); step; filter_calls; reflexivity.
Qed.

(** X1: every store lookup [attachUser] issues is for the ObjectId built
    from the session's user identifier, after [ObjectId.isValid] accepted
    that identifier; the calls of such a run are the accessor, the users
    collection and that one [findOne], in this order. *)
Theorem lookups_only_for_valid_identifiers (c : Ctx) (key : JSValue) :
  In (CallFindOne key) (store_calls (events (attachUser ObjectId config call_next c))) ->
  exists s,
    session (req c) = Some s /\
    truthy (userId s) = true /\
    isValid ObjectId (userId s) = true /\
    newObjectId ObjectId (userId s) = Returns key /\
    store_calls (events (attachUser ObjectId config call_next c))
    = [CallDbGetter; CallCollection (usersCollection config); CallFindOne key].
Proof.
  rewrite attachUser_store_calls. unfold lookup_calls.
  destruct (session (req c)) as [s|]; [ | intros [] ].
  destruct (truthy (userId s)) eqn:Hu; [ | intros [] ].
  intros [H | H]; [discriminate | ]. revert H.
  destruct (dbGetter config (req c)) as [[db|]|e]; [ | intros [] .. ].
  intros [H | H]; [discriminate | ]. revert H.
  destruct (collection db (usersCollection config)) as [coll|e]; [ | intros [] ].
  destruct (isValid ObjectId (userId s)) eqn:Hv; [ | intros [] ].
  destruct (newObjectId ObjectId (userId s)) as [k|e] eqn:Hk; [ | intros [] ].
  intros [H | []]. injection H as ->. exists s. repeat split; auto.
Qed.

(** X2: [attachUser] consults the store exactly when the session carries a
    user identifier; it then calls the accessor once and first, asks the
    handle for the configured users collection only, and issues at most one
    [findOne]: its store calls are an initial part of accessor, collection,
    lookup. *)
Theorem attachUser_store_access (c : Ctx) :
  let calls := store_calls (events (attachUser ObjectId config call_next c)) in
  (calls = [] <-> unauthenticated (req c) = true) /\
  exists key,
    calls `prefix_of`
      [CallDbGetter; CallCollection (usersCollection config); CallFindOne key].
Proof.
  cbv zeta. rewrite attachUser_store_calls. unfold lookup_calls, unauthenticated.
  destruct (session (req c)) as [s|].
  2: { split; [ tauto | exists JNull; apply prefix_nil ]. }
  destruct (truthy (userId s)); cbn [negb].
  2: { split; [ tauto | exists JNull; apply prefix_nil ]. }
  split; [ split; discriminate | ].
  destruct (dbGetter config (req c)) as [[db|]|e];
    [ | exists JNull; apply prefix_cons, prefix_nil .. ].
  destruct (collection db (usersCollection config)) as [coll|e];
    [ | exists JNull; do 2 apply prefix_cons; apply prefix_nil ].
  destruct (isValid ObjectId (userId s));
    [ | exists JNull; do 2 apply prefix_cons; apply prefix_nil ].
  destruct (newObjectId ObjectId (userId s)) as [k|e];
    [ exists k; reflexivity | exists JNull; do 2 apply prefix_cons; apply prefix_nil ].
Qed.

Lemma requireAuth_rejection_ignores_next (next : M unit) (c : Ctx) :
  unauthenticated (req c) = true ->
  requireAuth config next c = requireAuth config call_next c.
Proof.
  unfold unauthenticated, requireAuth, requireAuth_body. unfold_monad. step.
  destruct (session (req c)) as [s|]; [ | reflexivity ].
  intros Hu. rewrite Hu. reflexivity.
Qed.

Lemma requireAuth_hands_over (next : M unit) (c : Ctx) :
  unauthenticated (req c) = false ->
  let g := requireAuth config next c in
  outcome g = outcome (next c) /\ final g = final (next c) /\
  events g =
    log_events config
      ("requireAuth: Path: " +:+ toString (path_of (req c))
       +:+ ", Session ID: " +:+ toString (sessionId_of (req c))) Info
    ++ events (next c).
Proof.
  unfold unauthenticated, requireAuth, requireAuth_body. unfold_monad. step.
  destruct (session (req c)) as [s|]; [ | discriminate ].
  intros Hu. rewrite Hu. step.
  destruct (next c) as [[[]|e] c' evs]; step; rewrite ?app_nil_r; auto.
Qed.

Lemma outward_login_redirect (r : Request) (s : Session) :
  outward (login_redirect_events config r s) = [ERedirect (loginRedirectUrl config)].
Proof.
  unfold login_redirect_events, return_path_events, save_events.
  filter_events.
  destruct (returnTo_setter s); destruct (save s) as [[e|]|];
    filter_events; reflexivity.
Qed.

Lemma store_calls_login_redirect (r : Request) (s : Session) :
  store_calls (login_redirect_events config r s) = [].
Proof.
  unfold login_redirect_events, return_path_events, save_events.
  filter_calls.
  destruct (returnTo_setter s); destruct (save s) as [[e|]|];
    filter_calls; reflexivity.
Qed.

(** What [requireAuth] does in each of its four cases, in one statement. *)
Lemma requireAuth_cases (c : Ctx) :
  let g := requireAuth config call_next c in
  outcome g = Returns tt /\
  locals_user (final g) = locals_user c /\
  store_calls (events g) = [] /\
  outward (events g) =
    if unauthenticated (req c) then unauthorized_response config (req c)
    else [ENext].
Proof.
  cbv zeta. unfold unauthenticated, unauthorized_response.
  destruct (session (req c)) as [s|] eqn:Hs.
  - destruct (truthy (userId s)) eqn:Hu; cbn [negb].
    + destruct (requireAuth_hands_over call_next c) as (Ho & Hf & He).
      { unfold unauthenticated. rewrite Hs, Hu. reflexivity. }
      rewrite Ho, Hf, He. filter_events. filter_calls. auto.
    + destruct (isApiRequest (req c)) eqn:Hapi.
      * revert Hs Hu Hapi. unfold requireAuth, requireAuth_body. unfold_monad. step.
        intros Hs Hu Hapi. rewrite Hs, Hu. step. rewrite Hapi. step.
        filter_events. filter_calls. auto.
      * destruct (requireAuth_login_redirect c s Hs Hu Hapi) as (Ho & Hl & _ & He).
        rewrite Ho, Hl, He, outward_login_redirect, store_calls_login_redirect. auto.
  - revert Hs. unfold requireAuth, requireAuth_body. unfold_monad. step.
    intros Hs. rewrite Hs. step.
    destruct (isApiRequest (req c)); step; filter_events; filter_calls; auto.
Qed.

(** X3: [requireAuth] calls [next] exactly when the session exists and
    carries a truthy user identifier, and then sends no response; in every
    other case it sends exactly one response and does not call [next]:
    status 401 with the unauthorized body for a request under [/api], a
    redirect to the configured login URL, never to a location taken from the
    request, for any other. It never throws. *)
Theorem requireAuth_decision (c : Ctx) :
  let g := requireAuth config call_next c in
  outcome g = Returns tt /\
  outward (events g) =
    if unauthenticated (req c) then
      if isApiRequest (req c) then [EStatus 401; EJson unauthorized_body]
      else [ERedirect (loginRedirectUrl config)]
    else [ENext].
Proof.
  destruct (requireAuth_cases c) as (Ho & _ & _ & Hw). split; assumption.
Qed.

(** X4: the gates do no input or output of their own and publish nothing:
    [requireAuth] and [requireAdmin] never call the store accessor, a
    collection or a lookup, and leave [res.locals.user] as it is;
    [requireAdmin] also never logs, whatever logger is configured. *)
Theorem gates_leave_store_and_identity_alone (c : Ctx) :
  let g := requireAuth config call_next c in
  let d := requireAdmin call_next c in
  store_calls (events g) = [] /\ locals_user (final g) = locals_user c /\
  store_calls (events d) = [] /\ locals_user (final d) = locals_user c /\
  without_logs (events d) = events d.
Proof.
  cbv zeta.
  destruct (requireAuth_cases c) as (_ & Hl & Hs & _).
  destruct (requireAdmin_run c) as (_ & Hf & He).
  rewrite Hf, He. repeat split; try assumption;
    destruct (truthy (locals_user c) && truthy (getProp (locals_user c) "isAdmin"));
    try destruct (isApiRequest (req c)); reflexivity.
Qed.

(** [attachUser] in front of a continuation that returns: the continuation
    runs once, on the request as it was and with the identity of the
    resolution in the slot, and what the caller sees is what it does. *)
Lemma attachUser_continues_with (next : M unit) (c : Ctx) :
  (forall c', outcome (next c') = Returns tt) ->
  let c1 := with_user (identity_of (resolution ObjectId config (req c))) c in
  let r := attachUser ObjectId config next c in
  outcome r = Returns tt /\ final r = final (next c1) /\
  outward (events r) = outward (events (next c1)).
Proof.
  intros Hnext. unfold attachUser, resolution. unfold_monad. step.
  assert (Hrun : forall c', exists c2 evs, next c' = mkRun (Returns tt) c2 evs).
  { intros c'. specialize (Hnext c'). destruct (next c') as [[[]|e] c2 evs];
      [ eauto | discriminate ]. }
  assert (Hfinish : forall pre,
            outward pre = [] ->
            let r := next (with_user JNull c) in
            outcome r = Returns tt /\ final r = final r /\
            outward (pre ++ events r) = outward (events r)).
  { intros pre Hpre. cbv zeta. rewrite Hnext, outward_app, Hpre. auto. }
  destruct (session (req c)) as [s|]; step.
  2: { destruct (Hrun (with_user JNull c)) as (c2 & evs & E). rewrite E.
       step. filter_events. auto. }
  destruct (truthy (userId s)); step.
  2: { destruct (Hrun (with_user JNull c)) as (c2 & evs & E). rewrite E.
       step. filter_events. auto. }
  destruct (dbGetter config (req c)) as [[db|]|e]; step.
  2, 3: destruct (Hrun (with_user JNull c)) as (c2 & evs & E); rewrite E;
        step; filter_events; rewrite ?app_nil_r; auto.
  destruct (collection db (usersCollection config)) as [coll|e]; step.
  2: { destruct (Hrun (with_user JNull c)) as (c2 & evs & E). rewrite E.
       step. filter_events. auto. }
  destruct (isValid ObjectId (userId s)); step.
  2: { destruct (Hrun (with_user JNull c)) as (c2 & evs & E). rewrite E.
       step. filter_events. rewrite ?app_nil_r. auto. }
  destruct (newObjectId ObjectId (userId s)) as [key|e]; step.
  2: { destruct (Hrun (with_user JNull c)) as (c2 & evs & E). rewrite E.
       step. filter_events. auto. }
  destruct (findOne coll key) as [user|e]; step.
  2: { destruct (Hrun (with_user JNull c)) as (c2 & evs & E). rewrite E.
       step. filter_events. auto. }
  destruct (truthy user); step.
  - change (with_user (snapshot user) (with_user JNull c))
      with (with_user (snapshot user) c).
    destruct (Hrun (with_user (snapshot user) c)) as (c2 & evs & E). rewrite E.
    step. filter_events. auto.
  - destruct (Hrun (with_user JNull c)) as (c2 & evs & E). rewrite E.
    step. filter_events. auto.
Qed.

Lemma snapshot_isAdmin (user : JSValue) :
  truthy (getProp (snapshot user) "isAdmin") = truthy (getProp user "isAdmin").
Proof.
  change (getProp (snapshot user) "isAdmin")
    with (js_or (getProp user "isAdmin") (JBool false)).
  unfold js_or. destruct (truthy (getProp user "isAdmin")) eqn:H; [exact H | reflexivity].
Qed.

Lemma requireAdmin_outward (c : Ctx) :
  outcome (requireAdmin call_next c) = Returns tt /\
  outward (events (requireAdmin call_next c)) =
    if truthy (locals_user c) && truthy (getProp (locals_user c) "isAdmin")
    then [ENext] else forbidden_response (req c).
Proof.
  destruct (requireAdmin_run c) as (Ho & _ & He). split; [exact Ho | ].
  rewrite He. unfold forbidden_response.
  destruct (truthy (locals_user c) && truthy (getProp (locals_user c) "isAdmin"));
    [ | destruct (isApiRequest (req c)) ]; reflexivity.
Qed.

(** X5: on an admin route (attachUser, then requireAuth, then requireAdmin,
    then the handler) the handler is reached exactly when the session carries
    a user identifier, the lookup finds its record and the record's [isAdmin]
    is truthy. A request without session user gets the 401 or the login
    redirect; a request whose user is not found, whose lookup failed or
    whose record is not an administrator's gets the 403 or the redirect to
    [/]. The chain never throws and answers exactly once or continues. *)
Theorem admin_route_outcome (c : Ctx) :
  let r := admin_route ObjectId config call_next c in
  outcome r = Returns tt /\
  outward (events r) =
    if unauthenticated (req c) then unauthorized_response config (req c)
    else
      match resolution ObjectId config (req c) with
      | Found user =>
          if truthy (getProp user "isAdmin") then [ENext]
          else forbidden_response (req c)
      | _ => forbidden_response (req c)
      end.
Proof.
  cbv zeta. unfold admin_route.
  set (gate := requireAuth config (requireAdmin call_next)).
  assert (Hgate : forall c',
            outcome (gate c') = Returns tt /\
            outward (events (gate c')) =
              if unauthenticated (req c') then unauthorized_response config (req c')
              else if truthy (locals_user c') && truthy (getProp (locals_user c') "isAdmin")
                   then [ENext] else forbidden_response (req c')).
  { intros c'. unfold gate. destruct (unauthenticated (req c')) eqn:Hun.
    - rewrite (requireAuth_rejection_ignores_next _ c' Hun).
      destruct (requireAuth_cases c') as (Ho & _ & _ & Hw).
      rewrite Hun in Hw. auto.
    - destruct (requireAuth_hands_over (requireAdmin call_next) c' Hun) as (Ho & _ & He).
      destruct (requireAdmin_outward c') as (Ho' & Hw').
      rewrite Ho, He, outward_app, outward_log, Ho', Hw'. auto. }
  destruct (attachUser_continues_with gate c (fun c' => proj1 (Hgate c')))
    as (Ho & _ & Hw).
  split; [exact Ho | ]. rewrite Hw.
  destruct (Hgate (with_user (identity_of (resolution ObjectId config (req c))) c))
    as (_ & ->).
  cbn [with_user req locals_user].
  destruct (unauthenticated (req c)); [reflexivity | ].
  destruct (resolution ObjectId config (req c)) as [ | | | key | e | user ];
    cbn [identity_of truthy andb]; try reflexivity.
  change (truthy (snapshot user)) with true. cbn [andb].
  rewrite snapshot_isAdmin. reflexivity.
Qed.

Lemma after_first_next_log (message : string) (level : Level) (rest : list Event) :
  after_first_next (log_events config message level ++ rest) = after_first_next rest.
Proof. unfold log_events. destruct (logger config); reflexivity. Qed.

Ltac skip_to_next :=
  rewrite <- ?app_assoc;
  repeat progress
    (rewrite ?after_first_next_log; cbn [after_first_next app]; rewrite <- ?app_assoc).

(** X6: when the continuation throws, [attachUser] lets the exception out,
    but on its two early-return paths (no store handle, malformed
    identifier) the call of [next] sits inside the [try]: the exception is
    caught and logged as a lookup error, and [next] is called a second time
    after the [try]; on every other path [next] is called once, as the last
    thing [attachUser] does. *)
Theorem attachUser_calls_throwing_next_again (next : M unit) (e : JSError) (c : Ctx) :
  throwing_next e next ->
  let r := attachUser ObjectId config next c in
  outcome r = Throws e /\
  final r = with_user (identity_of (resolution ObjectId config (req c))) c /\
  outward (events r) =
    match resolution ObjectId config (req c) with
    | NoHandle | Malformed => [ENext; ENext]
    | _ => [ENext]
    end /\
  after_first_next (events r) =
    match resolution ObjectId config (req c) with
    | NoHandle | Malformed =>
        log_events config ("attachUser: Error fetching user: " +:+ message e) Error
        ++ [ENext]
    | _ => []
    end.
Proof.
  intros Hnext. unfold attachUser, resolution, with_user. unfold_monad. step.
  destruct (session (req c)) as [s|]; step.
  2: { rewrite Hnext. step. filter_events. skip_to_next. auto. }
  destruct (truthy (userId s)); step.
  2: { rewrite Hnext. step. filter_events. skip_to_next. auto. }
  destruct (dbGetter config (req c)) as [[db|]|e0]; step.
  2: { rewrite Hnext. step. rewrite Hnext. step. filter_events. skip_to_next. auto. }
  2: { rewrite Hnext. step. filter_events. skip_to_next. auto. }
  destruct (collection db (usersCollection config)) as [coll|e0]; step.
  2: { rewrite Hnext. step. filter_events. skip_to_next. auto. }
  destruct (isValid ObjectId (userId s)); step.
  2: { rewrite Hnext. step. rewrite Hnext. step. filter_events. skip_to_next. auto. }
  destruct (newObjectId ObjectId (userId s)) as [key|e0]; step.
  2: { rewrite Hnext. step. filter_events. skip_to_next. auto. }
  destruct (findOne coll key) as [user|e0]; step.
  2: { rewrite Hnext. step. filter_events. skip_to_next. auto. }
  destruct (truthy user); step; rewrite Hnext; step; filter_events; skip_to_next; auto.
Qed.

End Properties.

(** ** Session configuration *)

(** C5 (as the code has it): for a non-empty [uri] and [sec] and no [maxAge]
    given, [createSessionConfig] returns, with the production flag set, the
    configuration with cookie lifetime 86400000 ms, [secure] true and
    database [datas]; with the flag false or missing it returns the same
    configuration but for the database, which is [devdatas], and [secure],
    which is false. With an empty store locator, or an empty secret, it
    throws a configuration error and returns nothing. *)
Theorem createSessionConfig_environment (uri sec absent : JSValue) :
  truthy uri = true ->
  truthy sec = true ->
  truthy absent = false ->
  createSessionConfig (mkSessionOptions uri sec (JBool true) JUndefined) =
    Returns (mkSessionConfig "data-api.sid" sec false false "datas" "mySessions"
               (mkCookie (JNum 86400000) true "lax" (JBool true))) /\
  createSessionConfig (mkSessionOptions uri sec (JBool false) JUndefined) =
    Returns (mkSessionConfig "data-api.sid" sec false false "devdatas" "mySessions"
               (mkCookie (JNum 86400000) true "lax" (JBool false))) /\
  createSessionConfig (mkSessionOptions uri sec JUndefined JUndefined) =
    createSessionConfig (mkSessionOptions uri sec (JBool false) JUndefined) /\
  (forall other flag age,
     createSessionConfig (mkSessionOptions absent other flag age) =
       Throws (new_Error "dataapi-auth: mongoUri is required for session config")) /\
  (forall flag age,
     createSessionConfig (mkSessionOptions uri absent flag age) =
       Throws (new_Error "dataapi-auth: secret is required for session config")).
Proof.
  intros Huri Hsec Habsent. unfold createSessionConfig.
  cbn [mongoUri secret isProduction maxAge or_default].
  rewrite Huri, Hsec, Habsent. cbn [negb truthy].
  repeat split; reflexivity.
Qed.

Lemma createSessionConfig_environment_witness :
  truthy (JStr "mongodb://db.example.org:27017/") = true /\
  truthy (JStr "s3cr3t") = true /\
  truthy (JStr "") = false /\
  createSessionConfig
    (mkSessionOptions (JStr "mongodb://db.example.org:27017/") (JStr "s3cr3t")
                      (JBool true) JUndefined) =
    Returns (mkSessionConfig "data-api.sid" (JStr "s3cr3t") false false "datas"
               "mySessions" (mkCookie (JNum 86400000) true "lax" (JBool true))) /\
  createSessionConfig
    (mkSessionOptions (JStr "mongodb://db.example.org:27017/") (JStr "")
                      (JBool true) JUndefined) =
    Throws (new_Error "dataapi-auth: secret is required for session config").
Proof.
  split; [reflexivity | ]. split; [reflexivity | ]. split; [reflexivity | ].
  destruct (createSessionConfig_environment
              (JStr "mongodb://db.example.org:27017/") (JStr "s3cr3t") (JStr "")
              eq_refl eq_refl eq_refl) as (Hprod & _ & _ & _ & Hsecret).
  split; [exact Hprod | apply Hsecret].
Defined.

(** The production and the non-production configuration for the same secret
    and store locator differ in the database name and also in the cookie:
    [secure] is true in the first and false in the second. *)
Lemma session_config_secure_follows_environment :
  let prod := createSessionConfig
                (mkSessionOptions (JStr "m") (JStr "s") (JBool true) JUndefined) in
  let dev := createSessionConfig
               (mkSessionOptions (JStr "m") (JStr "s") (JBool false) JUndefined) in
  exists p d,
    prod = Returns p /\ dev = Returns d /\
    sc_databaseName p = "datas" /\ sc_databaseName d = "devdatas" /\
    cookie_secure (sc_cookie p) = JBool true /\
    cookie_secure (sc_cookie d) = JBool false /\
    sc_cookie d <> sc_cookie p.
Proof.
  cbv zeta. do 2 eexists.
  split; [reflexivity | ]. split; [reflexivity | ].
  repeat split. cbn. discriminate.
Qed.

(** Every configuration [createSessionConfig] returns. *)
Lemma createSessionConfig_returns (options : SessionOptions) (cfg : SessionConfig) :
  createSessionConfig options = Returns cfg ->
  truthy (mongoUri options) = true /\ truthy (secret options) = true /\
  cfg = mkSessionConfig "data-api.sid" (secret options) false false
          (if truthy (or_default (isProduction options) (JBool false))
           then "datas" else "devdatas")
          "mySessions"
          (mkCookie (or_default (maxAge options) (JNum 86400000)) true "lax"
                    (or_default (isProduction options) (JBool false))).
Proof.
  unfold createSessionConfig.
  destruct (truthy (mongoUri options)); cbn [negb]; [ | discriminate ].
  destruct (truthy (secret options)); cbn [negb]; [ | discriminate ].
  intros H. injection H as <-. auto.
Qed.

(** X9: two services that call [createSessionConfig] with the same secret
    and with production flags of the same truth value obtain configurations
    that agree on everything session sharing depends on: cookie name, secret,
    database name, session collection, [resave], [saveUninitialized],
    [httpOnly] and [sameSite]; their store locators and lifetimes may
    differ. *)
Theorem session_configs_agree (o1 o2 : SessionOptions) (c1 c2 : SessionConfig) :
  createSessionConfig o1 = Returns c1 ->
  createSessionConfig o2 = Returns c2 ->
  secret o1 = secret o2 ->
  truthy (or_default (isProduction o1) (JBool false))
  = truthy (or_default (isProduction o2) (JBool false)) ->
  sc_name c1 = sc_name c2 /\
  sc_secret c1 = sc_secret c2 /\
  sc_databaseName c1 = sc_databaseName c2 /\
  sc_collection c1 = sc_collection c2 /\
  sc_resave c1 = sc_resave c2 /\
  sc_saveUninitialized c1 = sc_saveUninitialized c2 /\
  cookie_httpOnly (sc_cookie c1) = cookie_httpOnly (sc_cookie c2) /\
  cookie_sameSite (sc_cookie c1) = cookie_sameSite (sc_cookie c2).
Proof.
  intros H1 H2 Hsecret Henv.
  apply createSessionConfig_returns in H1 as (_ & _ & ->).
  apply createSessionConfig_returns in H2 as (_ & _ & ->).
  cbn. rewrite Hsecret, Henv. repeat split.
Qed.

(** X10: in every configuration [createSessionConfig] returns, the secret is
    the non-empty one it was given, the database is [datas] exactly when the
    cookie's [secure] value is truthy and [devdatas] otherwise, [secure] is
    the production flag as given ([false] when the key is missing), and the
    lifetime is the one given, also when that is [null] or 0; only a missing
    lifetime becomes 86400000. *)
Theorem session_config_invariants (options : SessionOptions) (cfg : SessionConfig) :
  createSessionConfig options = Returns cfg ->
  sc_secret cfg = secret options /\
  truthy (sc_secret cfg) = true /\
  sc_databaseName cfg =
    (if truthy (cookie_secure (sc_cookie cfg)) then "datas" else "devdatas") /\
  cookie_secure (sc_cookie cfg) =
    match isProduction options with
    | JUndefined => JBool false
    | flag => flag
    end /\
  cookie_maxAge (sc_cookie cfg) =
    match maxAge options with
    | JUndefined => JNum 86400000
    | age => age
    end.
Proof.
  intros H. apply createSessionConfig_returns in H as (_ & Hsecret & ->).
  cbn. unfold or_default.
  repeat split; try assumption;
    destruct (isProduction options); destruct (maxAge options); reflexivity.
Qed.

(** ** Logging *)

Section Deployment.

Variable ObjectId : ObjectIdClass.
Variable config : Config.

Lemma quiet_log_events (message : string) (level : Level) :
  log_events (quiet config) message level = [].
Proof. reflexivity. Qed.

Ltac run :=
  cbn -[log_events String.append snapshot quiet];
  repeat (rewrite log_run; cbn -[log_events String.append snapshot quiet]);
  repeat progress
    (unfold mbind, M_bind, mret, M_ret, emit;
     cbn -[log_events String.append snapshot quiet];
     repeat (rewrite log_run; cbn -[log_events String.append snapshot quiet])).

Ltac run_monad :=
  unfold session_save;
  unfold mbind, M_bind, mret, M_ret, get_req, get_user, set_user, try_catch,
    call, lift, emit.

Ltac drop_logs :=
  rewrite ?quiet_log_events;
  repeat progress
    (rewrite ?without_logs_app, ?without_logs_log, ?without_logs_cons;
     cbn [without_logs List.filter negb is_log app]);
  rewrite ?app_nil_r.

Lemma attachUser_without_logger (next : M unit) (c : Ctx) :
  plain_next next ->
  let loud := attachUser ObjectId config next c in
  let silent := attachUser ObjectId (quiet config) next c in
  outcome silent = outcome loud /\ final silent = final loud /\
  events silent = without_logs (events loud).
Proof.
  intros Hnext. unfold attachUser. run_monad. run.
  change (dbGetter (quiet config)) with (dbGetter config).
  change (usersCollection (quiet config)) with (usersCollection config).
  destruct (session (req c)) as [s|]; run.
  2: { rewrite Hnext. run. drop_logs. auto. }
  destruct (truthy (userId s)); run.
  2: { rewrite Hnext. run. drop_logs. auto. }
  destruct (dbGetter config (req c)) as [[db|]|e]; run;
    [ | rewrite Hnext; run; drop_logs; auto .. ].
  destruct (collection db (usersCollection config)) as [coll|e]; run;
    [ | rewrite Hnext; run; drop_logs; auto ].
  destruct (isValid ObjectId (userId s)); run;
    [ | rewrite Hnext; run; drop_logs; auto ].
  destruct (newObjectId ObjectId (userId s)) as [key|e]; run;
    [ | rewrite Hnext; run; drop_logs; auto ].
  destruct (findOne coll key) as [user|e]; run;
    [ | rewrite Hnext; run; drop_logs; auto ].
  destruct (truthy user); run; rewrite Hnext; run; drop_logs; auto.
Qed.

Lemma requireAuth_without_logger (c : Ctx) :
  let loud := requireAuth config call_next c in
  let silent := requireAuth (quiet config) call_next c in
  outcome silent = outcome loud /\ final silent = final loud /\
  events silent = without_logs (events loud).
Proof.
  unfold requireAuth, requireAuth_body, call_next. run_monad. run.
  change (loginRedirectUrl (quiet config)) with (loginRedirectUrl config).
  destruct (session (req c)) as [s|]; run.
  2: { destruct (isApiRequest (req c)); run; drop_logs; auto. }
  destruct (truthy (userId s)); run; [ drop_logs; auto | ].
  destruct (isApiRequest (req c)); run; [ drop_logs; auto | ].
  unfold set_returnTo. run.
  destruct (session (req c)) as [s'|]; run.
  - destruct (returnTo_setter s') as [e|]; run;
      destruct (save s) as [[e'|]|]; run; drop_logs; auto.
  - destruct (save s) as [[e'|]|]; run; drop_logs; auto.
Qed.

(** X11: the logger is advisory. Without a logger function [attachUser],
    [optionalAuth] and [requireAuth] return the same result, end in the same
    state and have exactly the events they have with one, less the logger
    calls: what is logged, or whether anything is, changes no decision and
    no effect. *)
Theorem logger_is_advisory (c : Ctx) :
  (let loud := attachUser ObjectId config call_next c in
   let silent := attachUser ObjectId (quiet config) call_next c in
   outcome silent = outcome loud /\ final silent = final loud /\
   events silent = without_logs (events loud)) /\
  (let loud := optionalAuth ObjectId config call_next c in
   let silent := optionalAuth ObjectId (quiet config) call_next c in
   outcome silent = outcome loud /\ final silent = final loud /\
   events silent = without_logs (events loud)) /\
  (let loud := requireAuth config call_next c in
   let silent := requireAuth (quiet config) call_next c in
   outcome silent = outcome loud /\ final silent = final loud /\
   events silent = without_logs (events loud)).
Proof.
  split; [ exact (attachUser_without_logger call_next c call_next_plain) | ].
  split; [ | exact (requireAuth_without_logger c) ].
  cbv zeta.
  destruct (optionalAuth_run ObjectId config c) as (Ho & Hf & He).
  destruct (optionalAuth_run ObjectId (quiet config) c) as (Ho' & Hf' & He').
  destruct (attachUser_without_logger (call_next;; mret tt) c wrapped_next_plain)
    as (Eo & Ef & Ee).
  rewrite Ho, Hf, He, Ho', Hf', He', Eo, Ef, Ee.
  rewrite quiet_log_events, without_logs_app, without_logs_log. auto.
Qed.

End Deployment.

(** ** The middlewares on the sample deployment *)

Example session_config_production :
  createSessionConfig (mkSessionOptions (JStr "m") (JStr "s") (JBool true) JUndefined)
  = Returns (mkSessionConfig "data-api.sid" (JStr "s") false false "datas" "mySessions"
               (mkCookie (JNum 86400000) true "lax" (JBool true))).
Proof. reflexivity. Qed.

Example session_config_keeps_given_lifetime :
  cookie_maxAge <$>
    (match createSessionConfig
             (mkSessionOptions (JStr "m") (JStr "s") JUndefined (JNum 3600000)) with
     | Returns cfg => Some (sc_cookie cfg)
     | Throws _ => None
     end)
  = Some (JNum 3600000).
Proof. reflexivity. Qed.

Example offline_store_is_anonymous :
  let r := attachUser hexObjectId offline call_next
             (request "/iot" (Some (session_of (JStr alice_id)))) in
  resolution hexObjectId offline (req (request "/iot" (Some (session_of (JStr alice_id)))))
  = NoHandle /\
  locals_user (final r) = JNull /\
  events r = [ESetUser JNull; EStore CallDbGetter; ENext].
Proof. repeat split; reflexivity. Qed.

Example malformed_identifier_is_anonymous :
  let r := attachUser hexObjectId Sample.config call_next
             (request "/iot" (Some (session_of (JStr "not-an-object-id")))) in
  locals_user (final r) = JNull /\
  events r = [ESetUser JNull; EStore CallDbGetter; EStore (CallCollection "users"); ENext].
Proof. repeat split; reflexivity. Qed.

Example api_devices_unauthorized :
  events (requireAuth Sample.config call_next anonymous_api)
  = [EStatus 401; EJson unauthorized_body].
Proof. reflexivity. Qed.

Example admin_devices_login_redirect :
  let g := requireAuth Sample.config call_next anonymous_page in
  events g = [ESetReturnTo (JStr "/admin/devices"); ESessionSave;
              ESaveCallback None; ERedirect login_url] /\
  (returnTo <$> session (req (final g))) = Some (JStr "/admin/devices").
Proof. split; reflexivity. Qed.

Example alice_is_admin :
  let r := attachUser hexObjectId Sample.config call_next
             (request "/admin/devices" (Some (session_of (JStr alice_id)))) in
  getProp (locals_user (final r)) "isAdmin" = JBool true /\
  getProp (locals_user (final r)) "password" = JUndefined /\
  events (requireAdmin call_next (final r)) = [ENext].
Proof. repeat split; reflexivity. Qed.

Example bob_is_not_admin :
  let r := attachUser hexObjectId Sample.config call_next
             (request "/api/devices" (Some (session_of (JStr bob_id)))) in
  getProp (locals_user (final r)) "isAdmin" = JBool false /\
  events (requireAdmin call_next (final r)) = [EStatus 403; EJson forbidden_body].
Proof. repeat split; reflexivity. Qed.

Example lookup_error_is_logged_and_swallowed :
  let r := attachUser hexObjectId broken call_next stale_request in
  outcome r = Returns tt /\ locals_user (final r) = JNull /\
  last (events r) = Some ENext /\
  ELog "[AUTH ERROR] attachUser: Error fetching user: connection timed out" ∈ events r.
Proof. repeat split; try reflexivity. cbn. set_solver. Qed.

(** C1, the claim as stated fails: the session names a user the store no
    longer has, the lookup finds no record and the slot is [null], and
    [requireAuth] calls [next] instead of rejecting. *)
Lemma stale_session_not_rejected :
  let r := attachUser hexObjectId Sample.config call_next stale_request in
  let g := requireAuth Sample.config call_next (final r) in
  resolution hexObjectId Sample.config (req stale_request) = NotFound (JObjectId ghost_id) /\
  locals_user (final r) = JNull /\
  events g = [ENext] /\
  rejected (events g) = false.
Proof. cbv zeta. repeat split; vm_compute; reflexivity. Qed.

Lemma stale_session_passes_mandatory_gate_witness :
  resolution hexObjectId Sample.config (req stale_request) = NotFound (JObjectId ghost_id) /\
  let r := attachUser hexObjectId Sample.config call_next stale_request in
  let g := requireAuth Sample.config call_next (final r) in
  locals_user (final r) = JNull /\ outward (events r) = [ENext] /\
  outcome g = Returns tt /\ outward (events g) = [ENext] /\
  locals_user (final g) = JNull.
Proof.
  split; [reflexivity | ].
  apply (stale_session_passes_mandatory_gate hexObjectId Sample.config
           stale_request (JObjectId ghost_id)).
  reflexivity.
Defined.

(** C2, the claim as stated fails: redirecting an anonymous page visit,
    [requireAuth] assigns [returnTo] on the session and has it saved. *)
Lemma login_redirect_writes_session :
  let g := requireAuth Sample.config call_next anonymous_page in
  (returnTo <$> session (req anonymous_page)) = Some JUndefined /\
  (returnTo <$> session (req (final g))) = Some (JStr "/admin/devices") /\
  session (req (final g)) <> session (req anonymous_page) /\
  session_writes (events g) =
    [ESetReturnTo (JStr "/admin/devices"); ESessionSave; ESaveCallback None].
Proof. repeat split; try reflexivity. cbn. discriminate. Qed.

(** C3, the claim as stated fails: carol's record has [isAdmin: 1]; the
    snapshot carries the number, which is not the boolean [true], and
    [requireAdmin] accepts it. *)
Lemma requireAdmin_accepts_non_boolean_flag :
  let r := attachUser hexObjectId Sample.config call_next
             (request "/admin/devices" (Some (session_of (JStr carol_id)))) in
  getProp (locals_user (final r)) "isAdmin" = JNum 1 /\
  getProp (locals_user (final r)) "isAdmin" <> JBool true /\
  events (requireAdmin call_next (final r)) = [ENext] /\
  rejected (events (requireAdmin call_next (final r))) = false.
Proof.
  cbv zeta. split; [vm_compute; reflexivity | ].
  split; [vm_compute; discriminate | ].
  split; vm_compute; reflexivity.
Qed.

(** C4, the claim as stated fails: an unauthenticated page request that has
    no session is redirected to the login URL and no return path is recorded
    anywhere. *)
Lemma sessionless_redirect_records_nothing :
  let g := requireAuth Sample.config call_next sessionless_page in
  unauthenticated (req sessionless_page) = true /\
  isApiRequest (req sessionless_page) = false /\
  events g = [ERedirect login_url] /\
  session (req (final g)) = None.
Proof. repeat split; reflexivity. Qed.

Lemma mandatory_gate_rejection_shape_witness :
  unauthenticated (req anonymous_page) = true /\
  let g := requireAuth Sample.config call_next anonymous_page in
  outward (events g) = [ERedirect login_url] /\
  req (final g) =
    with_session (with_returnTo (JStr "/admin/devices") (session_of JUndefined))
                 (req anonymous_page).
Proof.
  split; [reflexivity | ].
  destruct (mandatory_gate_rejection_shape Sample.config anonymous_page eq_refl)
    as (_ & _ & H).
  change (isApiRequest (req anonymous_page)) with false in H.
  destruct H as (Hw & _ & Hr). split; [exact Hw | exact Hr].
Defined.

Lemma login_redirect_after_session_save_witness :
  let c := request "/admin/devices" (Some failing_session) in
  let g := requireAuth verbose call_next c in
  session (req c) = Some failing_session /\
  truthy (userId failing_session) = false /\
  isApiRequest (req c) = false /\
  outcome g = Returns tt /\
  outward (events g) = [ERedirect login_url].
Proof.
  cbv zeta. do 3 (split; [reflexivity | ]).
  destruct (login_redirect_after_session_save verbose
              (request "/admin/devices" (Some failing_session)) failing_session
              eq_refl eq_refl eq_refl) as (Ho & Hw & _).
  split; [exact Ho | exact Hw].
Defined.

Example failing_session_trace :
  events (requireAuth verbose call_next (request "/admin/devices" (Some failing_session)))
  = [ELog "[AUTH] requireAuth: Path: /admin/devices, Session ID: sid-1";
     ELog "[AUTH] requireAuth: No user ID for session. Path: /admin/devices";
     ESetReturnTo (JStr "/admin/devices");
     ELog "[AUTH ERROR] requireAuth: Failed to set returnTo on session: TypeError: Cannot assign to read only property";
     ESessionSave;
     ESaveCallback (Some (mkError "MongoError" "write failed"));
     ELog "[AUTH ERROR] requireAuth: ERROR SAVING SESSION: MongoError: write failed";
     ERedirect login_url].
Proof. reflexivity. Qed.

Lemma snapshot_allow_list_witness :
  let c := request "/admin/devices" (Some (session_of (JStr alice_id))) in
  resolution hexObjectId Sample.config (req c) = Found alice /\
  exists fields : gmap string JSValue,
    locals_user (final (attachUser hexObjectId Sample.config call_next c)) = JObj fields /\
    dom fields = allow_list /\
    fields !! "isAdmin" = Some (JBool true) /\
    fields !! "password" = None.
Proof.
  cbv zeta. split; [reflexivity | ].
  destruct (snapshot_allow_list hexObjectId Sample.config
              (request "/admin/devices" (Some (session_of (JStr alice_id)))) alice
              eq_refl)
    as (fields & Hpub & Hdom & _ & _ & _ & Hadmin & Hpw & _).
  exists fields. repeat split; assumption.
Defined.

Lemma lookups_only_for_valid_identifiers_witness :
  let c := request "/admin/devices" (Some (session_of (JStr alice_id))) in
  In (CallFindOne (JObjectId alice_id))
     (store_calls (events (attachUser hexObjectId Sample.config call_next c))) /\
  isValid hexObjectId (JStr alice_id) = true /\
  store_calls (events (attachUser hexObjectId Sample.config call_next c))
  = [CallDbGetter; CallCollection "users"; CallFindOne (JObjectId alice_id)].
Proof.
  cbv zeta.
  assert (Hcall : In (CallFindOne (JObjectId alice_id))
                     (store_calls (events (attachUser hexObjectId Sample.config call_next
                        (request "/admin/devices" (Some (session_of (JStr alice_id)))))))).
  { vm_compute. right. right. left. reflexivity. }
  split; [exact Hcall | ].
  destruct (lookups_only_for_valid_identifiers hexObjectId Sample.config _ _ Hcall)
    as (s & Hs & _ & Hvalid & _ & Hcalls).
  injection Hs as <-. split; [exact Hvalid | exact Hcalls].
Defined.

Lemma attachUser_calls_throwing_next_again_witness :
  let c := request "/iot" (Some (session_of (JStr alice_id))) in
  let r := attachUser hexObjectId offline crashing_handler c in
  throwing_next (mkError "Error" "handler crashed") crashing_handler /\
  resolution hexObjectId offline (req c) = NoHandle /\
  outcome r = Throws (mkError "Error" "handler crashed") /\
  outward (events r) = [ENext; ENext].
Proof.
  cbv zeta.
  assert (Hthrows : throwing_next (mkError "Error" "handler crashed") crashing_handler).
  { intros c. reflexivity. }
  split; [exact Hthrows | ]. split; [reflexivity | ].
  destruct (attachUser_calls_throwing_next_again hexObjectId offline crashing_handler
              (mkError "Error" "handler crashed")
              (request "/iot" (Some (session_of (JStr alice_id)))) Hthrows)
    as (Ho & _ & Hw & _).
  split; [exact Ho | exact Hw].
Defined.

Lemma session_configs_agree_witness :
  let o1 := mkSessionOptions (JStr "mongodb://a.example.org/") (JStr "s3cr3t")
                             (JBool true) JUndefined in
  let o2 := mkSessionOptions (JStr "mongodb://b.example.org/") (JStr "s3cr3t")
                             (JNum 1) (JNum 3600000) in
  exists c1 c2,
    createSessionConfig o1 = Returns c1 /\ createSessionConfig o2 = Returns c2 /\
    sc_name c1 = sc_name c2 /\ sc_databaseName c1 = sc_databaseName c2 /\
    sc_secret c1 = sc_secret c2.
Proof.
  cbv zeta. do 2 eexists.
  split; [reflexivity | ]. split; [reflexivity | ].
  destruct (session_configs_agree
              (mkSessionOptions (JStr "mongodb://a.example.org/") (JStr "s3cr3t")
                                (JBool true) JUndefined)
              (mkSessionOptions (JStr "mongodb://b.example.org/") (JStr "s3cr3t")
                                (JNum 1) (JNum 3600000))
              _ _ eq_refl eq_refl eq_refl eq_refl)
    as (Hname & Hsecret & Hdb & _).
  split; [exact Hname | ]. split; [exact Hdb | exact Hsecret].
Defined.

Lemma session_config_invariants_witness :
  let o := mkSessionOptions (JStr "mongodb://a.example.org/") (JStr "s3cr3t")
                            JNull JNull in
  exists cfg,
    createSessionConfig o = Returns cfg /\
    sc_databaseName cfg = "devdatas" /\
    cookie_secure (sc_cookie cfg) = JNull /\
    cookie_maxAge (sc_cookie cfg) = JNull.
Proof.
  cbv zeta. eexists. split; [reflexivity | ].
  destruct (session_config_invariants
              (mkSessionOptions (JStr "mongodb://a.example.org/") (JStr "s3cr3t")
                                JNull JNull) _ eq_refl)
    as (_ & _ & Hdb & Hsecure & Hage).
  split; [exact Hdb | ]. split; [exact Hsecure | exact Hage].
Defined.

Example admin_route_on_the_sample :
  outward (events (admin_route hexObjectId Sample.config call_next
                     (request "/admin/devices" (Some (session_of (JStr alice_id))))))
  = [ENext] /\
  outward (events (admin_route hexObjectId Sample.config call_next
                     (request "/admin/devices" (Some (session_of (JStr bob_id))))))
  = [ERedirect "/"] /\
  outward (events (admin_route hexObjectId Sample.config call_next stale_request))
  = [ERedirect "/"] /\
  outward (events (admin_route hexObjectId Sample.config call_next anonymous_api))
  = [EStatus 401; EJson unauthorized_body].
Proof. repeat split; vm_compute; reflexivity. Qed.
